(** * data/books/download_books.py

    A shallow embedding of the book download script and the properties of
    its two functions, [download_gutenberg_book] and [download_all_books],
    and of its [__main__] block.

    The script talks to three things outside itself: the network (one
    [urlopen] per book), the filesystem (one text file per book) and the
    console.  They are modelled by an explicit [World] that the functions
    thread through, and by an [Env] that decides what each external
    operation answers in a given world.  Python exceptions are values of a
    small error monad; the class hierarchy is kept because [except
    Exception] tests it.

    What the model takes for granted:
    - the console accepts every string: [print] does not fail;
    - an error or an interruption of the process arrives during one of
      the external operations ([urlopen] and the reading of the body,
      [open], the writing and closing of the file), not between two
      statements;
    - redirects are followed inside [urlopen]: the reply of the
      environment is the final one;
    - files are told apart by the parts of their path; no other process
      writes to them. *)

From Stdlib Require Import ZArith NArith Strings.Byte String Ascii.
From Stdlib Require Import DecimalString DecimalZ DecimalPos Lia List.
From stdpp Require Import gmap strings list.

Open Scope string_scope.
Open Scope list_scope.
Open Scope nat_scope.

(* ===================================================================== *)
(** * Python values used by the script *)
(* ===================================================================== *)

(** ** Exceptions

    The classes that the operations of the script can raise, with their
    base class as in CPython's hierarchy ([HTTPError] derives from
    [URLError], which derives from [OSError]). *)

Inductive py_class : Set :=
| BaseException
| Exception
| KeyboardInterrupt
| SystemExit
| GeneratorExit
| OSError
| URLError
| HTTPError
| TimeoutError
| PermissionError
| FileNotFoundError
| ValueError
| UnicodeError
| UnicodeDecodeError
| UnicodeEncodeError
| MemoryError.

#[global] Instance py_class_eq_dec : EqDecision py_class.
Proof. solve_decision. Defined.

Definition base (c : py_class) : option py_class :=
  match c with
  | BaseException => None
  | Exception | KeyboardInterrupt | SystemExit | GeneratorExit => Some BaseException
  | OSError | ValueError | MemoryError => Some Exception
  | URLError | TimeoutError | PermissionError | FileNotFoundError => Some OSError
  | HTTPError => Some URLError
  | UnicodeError => Some ValueError
  | UnicodeDecodeError | UnicodeEncodeError => Some UnicodeError
  end.

Fixpoint subclass_within (fuel : nat) (c target : py_class) : bool :=
  if decide (c = target) then true
  else match fuel with
       | O => false
       | S fuel' =>
           match base c with
           | Some p => subclass_within fuel' p target
           | None => false
           end
       end.

(** [issubclass c target]; no chain of bases is longer than five classes. *)
Definition issubclass (c target : py_class) : bool := subclass_within 5 c target.

(** An exception object: its class and what [str(e)] gives. *)
Record exn : Set := mk_exn { exn_class : py_class; exn_str : string }.

#[global] Instance exn_eq_dec : EqDecision exn.
Proof. solve_decision. Defined.

(** ** Integers and text *)

(** [f"{n}"] for an [int]. *)
Definition format_int (n : Z) : string := NilZero.string_of_int (Z.to_int n).

Definition LF_char : ascii := "010"%char.
Definition NL : string := String LF_char "".

(** A Python [str] holding file content is a sequence of code points. *)
Abbreviation text := (list N).

(* ===================================================================== *)
(** * The UTF-8 codec ([bytes.decode("utf-8")], [open(..., encoding="utf-8")]) *)
(* ===================================================================== *)

Module utf8.

Definition byte_of_N (n : N) : byte := default x00 (Byte.of_N n).

(** Continuation byte: 10xxxxxx. *)
Definition is_cont (n : N) : bool := ((0x80 <=? n) && (n <? 0xC0))%N.

Definition is_surrogate (c : N) : bool := ((0xD800 <=? c) && (c <? 0xE000))%N.

Definition payload (n : N) : N := (n - 0x80)%N.

(** Strict decoding: overlong forms, surrogates, code points above
    U+10FFFF, stray continuation bytes and truncated sequences are all
    rejected ([None] stands for [UnicodeDecodeError]). *)
Fixpoint decode (bs : list byte) : option text :=
  match bs with
  | [] => Some []
  | b0 :: r0 =>
      let n0 := Byte.to_N b0 in
      if (n0 <? 0x80)%N then
        match decode r0 with Some s => Some (n0 :: s) | None => None end
      else if (n0 <? 0xC0)%N then None
      else if (n0 <? 0xE0)%N then
        match r0 with
        | b1 :: r1 =>
            let n1 := Byte.to_N b1 in
            let c := ((n0 - 0xC0) * 64 + payload n1)%N in
            if is_cont n1 && (0x80 <=? c)%N then
              match decode r1 with Some s => Some (c :: s) | None => None end
            else None
        | _ => None
        end
      else if (n0 <? 0xF0)%N then
        match r0 with
        | b1 :: b2 :: r2 =>
            let n1 := Byte.to_N b1 in
            let n2 := Byte.to_N b2 in
            let c := ((n0 - 0xE0) * 4096 + payload n1 * 64 + payload n2)%N in
            if is_cont n1 && is_cont n2 && (0x800 <=? c)%N && negb (is_surrogate c) then
              match decode r2 with Some s => Some (c :: s) | None => None end
            else None
        | _ => None
        end
      else if (n0 <? 0xF8)%N then
        match r0 with
        | b1 :: b2 :: b3 :: r3 =>
            let n1 := Byte.to_N b1 in
            let n2 := Byte.to_N b2 in
            let n3 := Byte.to_N b3 in
            let c := ((n0 - 0xF0) * 262144 + payload n1 * 4096
                      + payload n2 * 64 + payload n3)%N in
            if is_cont n1 && is_cont n2 && is_cont n3
               && (0x10000 <=? c)%N && (c <? 0x110000)%N then
              match decode r3 with Some s => Some (c :: s) | None => None end
            else None
        | _ => None
        end
      else None
  end.

(** Encoding of one code point; surrogates and values above U+10FFFF
    cannot be encoded ([None] stands for [UnicodeEncodeError]). *)
Definition encode_cp (c : N) : option (list byte) :=
  if (c <? 0x80)%N then Some [byte_of_N c]
  else if (c <? 0x800)%N then
    Some [byte_of_N (0xC0 + c / 64); byte_of_N (0x80 + c mod 64)]%N
  else if (c <? 0x10000)%N then
    if is_surrogate c then None
    else Some [byte_of_N (0xE0 + c / 4096);
               byte_of_N (0x80 + (c / 64) mod 64);
               byte_of_N (0x80 + c mod 64)]%N
  else if (c <? 0x110000)%N then
    Some [byte_of_N (0xF0 + c / 262144);
          byte_of_N (0x80 + (c / 4096) mod 64);
          byte_of_N (0x80 + (c / 64) mod 64);
          byte_of_N (0x80 + c mod 64)]%N
  else None.

Fixpoint encode (s : text) : option (list byte) :=
  match s with
  | [] => Some []
  | c :: r =>
      match encode_cp c, encode r with
      | Some a, Some b => Some (a ++ b)
      | _, _ => None
      end
  end.

(** A code point that a [str] obtained by decoding can hold. *)
Definition scalar (c : N) : Prop := (c < 0x110000)%N ∧ is_surrogate c = false.

End utf8.

(* ===================================================================== *)
(** * [pathlib] paths (POSIX flavour) *)
(* ===================================================================== *)

(** A path is its tuple of [parts]: for an absolute path the first part is
    the root, ["/"] (or ["//"], which POSIX keeps apart).  The filesystem
    below is keyed by these tuples; it does not resolve [".."] or links. *)
Abbreviation Path := (list string).

Module pathlib.

Definition is_slash (a : ascii) : bool := Ascii.eqb a "/".

(** The components between slashes, empty ones included. *)
Fixpoint split_slash (s : string) : list string :=
  match s with
  | EmptyString => [""]
  | String a r =>
      if is_slash a then "" :: split_slash r
      else match split_slash r with
           | hd :: tl => String a hd :: tl
           | [] => [String a ""]
           end
  end.

Definition kept (c : string) : bool :=
  negb (String.eqb c "") && negb (String.eqb c ".").

(** The root of a path string: exactly two leading slashes are kept as
    ["//"], one or three and more collapse to ["/"]. *)
Definition root_of (s : string) : option string :=
  match s with
  | String a (String b (String c _)) =>
      if is_slash a then
        if is_slash b && negb (is_slash c) then Some "//" else Some "/"
      else None
  | String a (String b EmptyString) =>
      if is_slash a then (if is_slash b then Some "//" else Some "/") else None
  | String a EmptyString => if is_slash a then Some "/" else None
  | EmptyString => None
  end.

(** [Path(s).parts] *)
Definition parse (s : string) : Path :=
  let comps := List.filter kept (split_slash s) in
  match root_of s with
  | Some r => r :: comps
  | None => comps
  end.

(** [p / s]: an absolute right operand replaces the left one. *)
Definition joinpath (p : Path) (s : string) : Path :=
  match root_of s with
  | Some _ => parse s
  | None => p ++ parse s
  end.

Definition is_root (c : string) : bool := String.eqb c "/" || String.eqb c "//".

(** [p.parent]: the root is its own parent. *)
Definition parent (p : Path) : Path :=
  match p with
  | [r] => if is_root r then p else []
  | _ => removelast p
  end.

Fixpoint join_parts (cs : list string) : string :=
  match cs with
  | [] => ""
  | [c] => c
  | c :: rest => c +:+ "/" +:+ join_parts rest
  end.

(** [str(p)] *)
Definition str (p : Path) : string :=
  match p with
  | [] => "."
  | r :: rest => if is_root r then r +:+ join_parts rest else join_parts p
  end.

End pathlib.

(* ===================================================================== *)
(** * [urllib.request] *)
(* ===================================================================== *)

Module urllib.

(** [urllib.request.Request(url, headers=...)]; no [data] is ever given. *)
Record Request : Type := mk_Request {
  full_url : string;
  headers : list (string * string);
  data : option (list byte)
}.

(** [Request.get_method()]: a request without [data] is a GET. *)
Definition get_method (r : Request) : string :=
  match data r with
  | None => "GET"
  | Some _ => "POST"
  end.

(** What the remote end does with one request.  [Unreachable e]: no
    response is obtained and [urlopen] raises [e] (a [URLError], a
    timeout, an interruption of the process).  [Status code reason b]:
    the final response, after redirects, with what reading its body
    gives. *)
Inductive reply : Type :=
| Unreachable (e : exn)
| Status (code : Z) (reason : string) (body : exn + list byte).

(** The error [urlopen] raises for a response outside 200..299. *)
Definition http_error (code : Z) (reason : string) : exn :=
  mk_exn HTTPError ("HTTP Error " +:+ format_int code +:+ ": " +:+ reason).

Definition is_success (code : Z) : bool := ((200 <=? code) && (code <? 300))%Z.

End urllib.

(* ===================================================================== *)
(** * The world outside the script, and the process state *)
(* ===================================================================== *)

(** The two module-level names, bound once when the module is loaded. *)
Record Globals : Type := mk_Globals {
  BOOKS : list (Z * string);
  OUTPUT_DIR : Path
}.

(** [fs]: the files, by path, with their bytes.  [stdout]: the strings
    given to [print], oldest first; each is followed by a newline on the
    console.  [requests]: the requests handed to [urlopen], oldest first.
    [calls]: the arguments of each call of [download_gutenberg_book],
    oldest first; it is a record of the execution, not read by the
    script. *)
Record World : Type := mk_World {
  globals : Globals;
  fs : gmap Path (list byte);
  stdout : list string;
  requests : list urllib.Request;
  calls : list (Z * string)
}.

(** [os.linesep] *)
Inductive linesep_kind : Set := LF | CRLF.

Definition linesep (k : linesep_kind) : text :=
  match k with
  | LF => [10%N]
  | CRLF => [13%N; 10%N]
  end.

(** What the platform and the outside answer.  Every answer may depend on
    the whole world at the time of the operation, so the answer to the
    same request may differ from one call to the next.

    - [os_linesep]: the platform's line separator.
    - [http]: the reply to a request.
    - [open_w]: [open(path, "w")]; [Some e] when the file cannot be opened
      for writing, and then it is neither created nor truncated.
    - [flush_w]: writing the encoded bytes out and closing the file;
      [Some (k, e)] when only the first [k] bytes reach the file before
      [e] is raised.
    - [codec_error]: the message of the [UnicodeDecodeError] for a body
      that is not UTF-8.
    - [encode_error]: the message of the [UnicodeEncodeError] for a text
      that cannot be encoded. *)
Record Env : Type := mk_Env {
  os_linesep : linesep_kind;
  http : World → urllib.Request → urllib.reply;
  open_w : World → Path → option exn;
  flush_w : World → Path → list byte → option (nat * exn);
  codec_error : list byte → string;
  encode_error : text → string
}.

(** ** Computations: state passing with exceptions *)

Inductive result (A : Type) : Type :=
| Ret (a : A)
| Raise (e : exn).
Arguments Ret {A} a.
Arguments Raise {A} e.

Definition M (A : Type) : Type := World → result A * World.

Definition ret {A} (a : A) : M A := fun w => (Ret a, w).

Definition raise {A} (e : exn) : M A := fun w => (Raise e, w).

Definition bind {A B} (m : M A) (k : A → M B) : M B :=
  fun w =>
    match m w with
    | (Ret a, w') => k a w'
    | (Raise e, w') => (Raise e, w')
    end.

(** stdpp's monad notations: [x ← m; k] and [m;; k]. *)
#[global] Instance M_ret : MRet M := @ret.
#[global] Instance M_bind : MBind M := fun A B k m => bind m k.

(** [try: body  except cls as e: handler e] *)
Definition try_except {A} (body : M A) (cls : py_class) (handler : exn → M A) : M A :=
  fun w =>
    match body w with
    | (Ret a, w') => (Ret a, w')
    | (Raise e, w') =>
        if issubclass (exn_class e) cls then handler e w' else (Raise e, w')
    end.

Definition get_BOOKS : M (list (Z * string)) := fun w => (Ret (BOOKS (globals w)), w).

Definition get_OUTPUT_DIR : M Path := fun w => (Ret (OUTPUT_DIR (globals w)), w).

Definition set_fs (f : gmap Path (list byte)) (w : World) : World :=
  mk_World (globals w) f (stdout w) (requests w) (calls w).

(** [print(s)] *)
Definition print (s : string) : M unit :=
  fun w => (Ret tt, mk_World (globals w) (fs w) (stdout w ++ [s]) (requests w) (calls w)).

Definition record_call (book_id : Z) (filename : string) : M unit :=
  fun w => (Ret tt, mk_World (globals w) (fs w) (stdout w) (requests w)
                             (calls w ++ [(book_id, filename)])).

(** [with urllib.request.urlopen(request) as response: response.read()]:
    the request goes out; a reply outside 200..299 is raised as
    [HTTPError]; otherwise the body is read in full. *)
Definition urlopen_read (E : Env) (request : urllib.Request) : M (list byte) :=
  fun w =>
    let w' := mk_World (globals w) (fs w) (stdout w) (requests w ++ [request]) (calls w) in
    match http E w request with
    | urllib.Unreachable e => (Raise e, w')
    | urllib.Status code reason body =>
        if urllib.is_success code then
          match body with
          | inr bs => (Ret bs, w')
          | inl e => (Raise e, w')
          end
        else (Raise (urllib.http_error code reason), w')
    end.

(** [bs.decode("utf-8")] *)
Definition decode_utf8 (E : Env) (bs : list byte) : M text :=
  match utf8.decode bs with
  | Some s => ret s
  | None => raise (mk_exn UnicodeDecodeError (codec_error E bs))
  end.

(** Text mode with the default [newline=None]: each ["\n"] written
    becomes [os.linesep]. *)
Definition translate_newlines (k : linesep_kind) (s : text) : text :=
  flat_map (fun c => if (c =? 10)%N then linesep k else [c]) s.

(** [open(path, "w", encoding="utf-8")]: on success the file exists and is
    empty. *)
Definition open_for_writing (E : Env) (path : Path) : M unit :=
  fun w =>
    match open_w E w path with
    | Some e => (Raise e, w)
    | None => (Ret tt, set_fs (<[path := []]> (fs w)) w)
    end.

(** [f.write(content)] and the close that ends the [with] block. *)
Definition write_and_close (E : Env) (path : Path) (content : text) : M unit :=
  match utf8.encode (translate_newlines (os_linesep E) content) with
  | None => raise (mk_exn UnicodeEncodeError (encode_error E content))
  | Some bs =>
      fun w =>
        match flush_w E w path bs with
        | None => (Ret tt, set_fs (<[path := bs]> (fs w)) w)
        | Some (k, e) => (Raise e, set_fs (<[path := take k bs]> (fs w)) w)
        end
  end.

(* ===================================================================== *)
(** * The script *)
(* ===================================================================== *)

(** Lines 8-22: the table and the output directory, for a script stored
    at [script_file] (the value of [__file__]). *)
Definition module_globals (script_file : Path) : Globals :=
  {| BOOKS := [ (1342, "pride-and-prejudice");
                (2701, "moby-dick");
                (84, "frankenstein");
                (76, "adventures-of-huckleberry-finn");
                (1661, "adventures-of-sherlock-holmes");
                (1400, "great-expectations");
                (2600, "war-and-peace");
                (2554, "crime-and-punishment");
                (219, "heart-of-darkness");
                (829, "gullivers-travels") ]%Z;
     OUTPUT_DIR := pathlib.parent script_file |}.

(** The world in which the script starts: the module is loaded, nothing
    has been printed or requested yet. *)
Definition initial_world (script_file : Path) (files : gmap Path (list byte)) : World :=
  mk_World (module_globals script_file) files [] [] [].

Definition book_url (book_id : Z) : string :=
  "https://www.gutenberg.org/cache/epub/" +:+ format_int book_id
    +:+ "/pg" +:+ format_int book_id +:+ ".txt".

Definition book_request (book_id : Z) : urllib.Request :=
  urllib.mk_Request (book_url book_id) [("User-Agent", "Python-urllib/3.x")] None.

(** [OUTPUT_DIR / f"{filename}.txt"] *)
Definition output_path_of (w : World) (filename : string) : Path :=
  pathlib.joinpath (OUTPUT_DIR (globals w)) (filename +:+ ".txt").

(** Lines 25-45. *)
Definition download_gutenberg_book (E : Env) (book_id : Z) (filename : string) : M Path :=
  record_call book_id filename;;
  let url := book_url book_id in
  let request := urllib.mk_Request url [("User-Agent", "Python-urllib/3.x")] None in
  content ← (body ← urlopen_read E request; decode_utf8 E body);
  output_dir ← get_OUTPUT_DIR;
  let output_path := pathlib.joinpath output_dir (filename +:+ ".txt") in
  (open_for_writing E output_path ;; write_and_close E output_path content);;
  print ("Downloaded: " +:+ filename +:+ ".txt");;
  ret output_path.

(** The [for] loop of lines 50-54 over the items still to come. *)
Fixpoint download_each (E : Env) (books : list (Z * string)) : M unit :=
  match books with
  | [] => ret tt
  | (book_id, filename) :: rest =>
      try_except
        (download_gutenberg_book E book_id filename ;; ret tt)
        Exception
        (fun e => print ("Failed to download " +:+ filename +:+ ": " +:+ exn_str e));;
      download_each E rest
  end.

(** Lines 48-54. *)
Definition download_all_books (E : Env) : M unit :=
  books ← get_BOOKS;
  download_each E books.

(** Lines 57-61. *)
Definition main (E : Env) : M unit :=
  books ← get_BOOKS;
  print ("Downloading " +:+ format_int (Z.of_nat (length books))
         +:+ " classic books from Project Gutenberg...");;
  output_dir ← get_OUTPUT_DIR;
  print ("Saving to: " +:+ pathlib.str output_dir +:+ NL);;
  download_all_books E;;
  print (NL +:+ "Done!").

(* ===================================================================== *)
(** * Vocabulary of the properties *)
(* ===================================================================== *)

(** ** The worlds a call of [download_gutenberg_book] goes through *)

(** On entry: the call is on record. *)
Definition entered (w : World) (book_id : Z) (filename : string) : World :=
  mk_World (globals w) (fs w) (stdout w) (requests w) (calls w ++ [(book_id, filename)]).

(** After [urlopen]: the request has gone out; no file is touched yet. *)
Definition requested (w : World) (book_id : Z) (filename : string) : World :=
  mk_World (globals w) (fs w) (stdout w) (requests w ++ [book_request book_id])
           (calls w ++ [(book_id, filename)]).

(** After [open]: the output file exists and is empty. *)
Definition opened (w : World) (book_id : Z) (filename : string) : World :=
  set_fs (<[output_path_of w filename := []]> (fs w)) (requested w book_id filename).

(** The bytes that text mode writes for [content]. *)
Definition encoded (E : Env) (content : text) : option (list byte) :=
  utf8.encode (translate_newlines (os_linesep E) content).

(** ** The ways one item can fail

    [fetch_failure E book_id filename w ph e]: in world [w], with the
    answers of [E], the download of the item fails in phase [ph], the
    underlying error being [e]. *)

Inductive phase : Set :=
| Network      (* no response: unreachable host, timeout, interruption *)
| BadStatus    (* a response outside 200..299 *)
| Reading      (* the body could not be read in full *)
| Decoding     (* the body is not UTF-8 *)
| Opening      (* the output file could not be opened for writing *)
| Writing.     (* the bytes could not all be written *)

#[global] Instance phase_eq_dec : EqDecision phase.
Proof. solve_decision. Defined.

Inductive fetch_failure (E : Env) (book_id : Z) (filename : string) (w : World)
  : phase → exn → Prop :=
| fail_network e :
    http E (entered w book_id filename) (book_request book_id) = urllib.Unreachable e →
    fetch_failure E book_id filename w Network e
| fail_status code reason body :
    http E (entered w book_id filename) (book_request book_id)
      = urllib.Status code reason body →
    urllib.is_success code = false →
    fetch_failure E book_id filename w BadStatus (urllib.http_error code reason)
| fail_read code reason e :
    http E (entered w book_id filename) (book_request book_id)
      = urllib.Status code reason (inl e) →
    urllib.is_success code = true →
    fetch_failure E book_id filename w Reading e
| fail_decode code reason body :
    http E (entered w book_id filename) (book_request book_id)
      = urllib.Status code reason (inr body) →
    urllib.is_success code = true →
    utf8.decode body = None →
    fetch_failure E book_id filename w Decoding
                  (mk_exn UnicodeDecodeError (codec_error E body))
| fail_open code reason body content e :
    http E (entered w book_id filename) (book_request book_id)
      = urllib.Status code reason (inr body) →
    urllib.is_success code = true →
    utf8.decode body = Some content →
    open_w E (requested w book_id filename) (output_path_of w filename) = Some e →
    fetch_failure E book_id filename w Opening e
| fail_write code reason body content out k e :
    http E (entered w book_id filename) (book_request book_id)
      = urllib.Status code reason (inr body) →
    urllib.is_success code = true →
    utf8.decode body = Some content →
    open_w E (requested w book_id filename) (output_path_of w filename) = None →
    encoded E content = Some out →
    flush_w E (opened w book_id filename) (output_path_of w filename) out = Some (k, e) →
    fetch_failure E book_id filename w Writing e.

(** The item can be fetched and stored: the resource is reachable and
    answers with [body], and the output path is writable. *)
Definition fetchable (E : Env) (book_id : Z) (filename : string) (w : World)
    (body : list byte) : Prop :=
  (∃ code reason,
      http E (entered w book_id filename) (book_request book_id)
        = urllib.Status code reason (inr body)
      ∧ urllib.is_success code = true)
  ∧ open_w E (requested w book_id filename) (output_path_of w filename) = None
  ∧ ∀ out, flush_w E (opened w book_id filename) (output_path_of w filename) out = None.

(** ** Ordinary failures

    Every error that the outside raises is an [Exception]: a network or
    filesystem error, not an interruption of the process such as
    [KeyboardInterrupt] or [SystemExit]. *)
Definition is_error (e : exn) : Prop := issubclass (exn_class e) Exception = true.

Definition ordinary (E : Env) : Prop :=
  (∀ w r e, http E w r = urllib.Unreachable e → is_error e)
  ∧ (∀ w r code reason e, http E w r = urllib.Status code reason (inl e) → is_error e)
  ∧ (∀ w p e, open_w E w p = Some e → is_error e)
  ∧ (∀ w p out k e, flush_w E w p out = Some (k, e) → is_error e).

(** ** Observing the batch *)



(** The world after the handler of line 54 has reported [e]. *)
Definition reported (filename : string) (e : exn) (w : World) : World :=
  snd (print ("Failed to download " +:+ filename +:+ ": " +:+ exn_str e) w).


Definition summary_line (w : World) : string :=
  "Downloading " +:+ format_int (Z.of_nat (length (BOOKS (globals w))))
    +:+ " classic books from Project Gutenberg...".

Definition saving_line (w : World) : string :=
  "Saving to: " +:+ pathlib.str (OUTPUT_DIR (globals w)) +:+ NL.

Definition done_line : string := NL +:+ "Done!".

(** The world in which [main] calls [download_all_books]: the two lines
    of 58-59 are on the console. *)
Definition started (w : World) : World :=
  mk_World (globals w) (fs w) (stdout w ++ [summary_line w; saving_line w])
           (requests w) (calls w).

(** ** Vocabulary of the further properties *)

(** A name without a slash: one path component. *)
Fixpoint has_slash (s : string) : bool :=
  match s with
  | EmptyString => false
  | String a r => pathlib.is_slash a || has_slash r
  end.

(** The answers of the environment do not depend on the world: the same
    request gets the same reply, the same path opens and is written the
    same way, whenever it is asked. *)
Definition world_independent (E : Env) : Prop :=
  (∀ w w' r, http E w r = http E w' r)
  ∧ (∀ w w' p, open_w E w p = open_w E w' p)
  ∧ (∀ w w' p out, flush_w E w p out = flush_w E w' p out).

(** ** Concrete environments *)

(** An environment whose answers never change. *)
Definition static_env (k : linesep_kind) (r : urllib.reply)
    (o : option exn) (f : option (nat * exn)) : Env :=
  mk_Env k (fun _ _ => r) (fun _ _ => o) (fun _ _ _ => f)
         (fun _ => "invalid start byte") (fun _ => "surrogates not allowed").

Definition ok_reply (body : list byte) : urllib.reply := urllib.Status 200 "OK" (inr body).

Definition chapter_one : list byte := list_byte_of_string "Chapter 1...".

(** Every book is served, every file can be written. *)
Definition env_all_served : Env := static_env LF (ok_reply chapter_one) None None.

(** Every book is answered with 404. *)
Definition env_not_found : Env :=
  static_env LF (urllib.Status 404 "Not Found" (inr [])) None None.

(** Every body is the single byte FF. *)
Definition env_not_utf8 : Env := static_env LF (ok_reply [xff]) None None.

(** The disk is full after three bytes. *)
Definition env_disk_full : Env :=
  static_env LF (ok_reply chapter_one) None
             (Some (3, mk_exn OSError "[Errno 28] No space left on device")).

(** The user presses Ctrl-C while the first request is under way. *)
Definition env_interrupted : Env :=
  static_env LF (urllib.Unreachable (mk_exn KeyboardInterrupt "")) None None.

(** A platform whose line separator is CR LF; every body is ["a\n"]. *)
Definition env_crlf : Env := static_env CRLF (ok_reply [x61; x0a]) None None.

(** Frankenstein (84) is answered with 404, every other book is served. *)
Definition env_one_missing : Env :=
  mk_Env LF
         (fun _ r => if String.eqb (urllib.full_url r) (book_url 84)
                     then urllib.Status 404 "Not Found" (inr [])
                     else ok_reply chapter_one)
         (fun _ _ => None) (fun _ _ _ => None)
         (fun _ => "invalid start byte") (fun _ => "surrogates not allowed").

Definition script_path : Path := ["/"; "srv"; "hearth"; "data"; "books"; "download_books.py"].

Definition fresh_world : World := initial_world script_path ∅.

(* ===================================================================== *)
(** * The codec: decoding and encoding are inverse to each other *)
(* ===================================================================== *)

(** [lia] on quotients and remainders by constants. *)
Ltac Zify.zify_post_hook ::= Z.to_euclidean_division_equations.

Lemma byte_of_to_N (b : byte) : utf8.byte_of_N (Byte.to_N b) = b.
Proof. unfold utf8.byte_of_N. by rewrite Byte.of_to_N. Qed.

Lemma to_of_byte_N (n : N) : (n < 256)%N → Byte.to_N (utf8.byte_of_N n) = n.
Proof.
  intros Hn. unfold utf8.byte_of_N.
  destruct (Byte.of_N n) as [b|] eqn:Hb; simpl.
  - by apply Byte.to_of_N.
  - apply Byte.of_N_None_iff in Hb. lia.
Qed.

Lemma byte_of_N_eq (n : N) (b : byte) : n = Byte.to_N b → utf8.byte_of_N n = b.
Proof. intros ->. apply byte_of_to_N. Qed.

Lemma is_cont_spec n : utf8.is_cont n = true ↔ (0x80 <= n < 0xC0)%N.
Proof. unfold utf8.is_cont. rewrite andb_true_iff, N.leb_le, N.ltb_lt. tauto. Qed.

Lemma is_surrogate_false c : utf8.is_surrogate c = false ↔ (c < 0xD800 ∨ 0xE000 <= c)%N.
Proof.
  unfold utf8.is_surrogate. rewrite andb_false_iff, N.leb_gt, N.ltb_ge. tauto.
Qed.


Ltac case_ltb :=
  repeat match goal with
         | |- context [(?a <? ?c)%N] => destruct (N.ltb_spec a c); try lia
         end.

Ltac case_cont b :=
  let C := fresh "C" in
  destruct (utf8.is_cont (Byte.to_N b)) eqn:C; [apply is_cont_spec in C | done];
  cbn [andb].

Ltac step_done s' pre rest :=
  intros [= <-]; unfold utf8.payload in *;
  eexists _, s', pre, rest;
  split; [done|]; split; [|split; [|split; [done|split; [done|simpl; lia]]]];
  [ unfold utf8.encode_cp; case_ltb;
    try match goal with
        | |- context [utf8.is_surrogate ?c] =>
            let S := fresh "S" in
            destruct (utf8.is_surrogate c) eqn:S; [congruence|]
        end;
    repeat f_equal; apply byte_of_N_eq; lia
  | split; [lia | first [assumption | apply is_surrogate_false; lia]] ].

(** One decoding step. *)
Lemma decode_step b0 r0 s :
  utf8.decode (b0 :: r0) = Some s →
  ∃ c s' pre rest,
    b0 :: r0 = pre ++ rest ∧ utf8.encode_cp c = Some pre ∧ utf8.scalar c ∧
    utf8.decode rest = Some s' ∧ s = c :: s' ∧ length rest < length (b0 :: r0).
Proof.
  pose proof (Byte.to_N_bounded b0) as B0.
  cbn [utf8.decode].
  destruct (N.ltb_spec (Byte.to_N b0) 0x80) as [H1|H1].
  { destruct (utf8.decode r0) as [s'|] eqn:Hr; [|done].
    step_done s' [b0] r0. }
  destruct (N.ltb_spec (Byte.to_N b0) 0xC0) as [H2|H2]; [done|].
  destruct (N.ltb_spec (Byte.to_N b0) 0xE0) as [H3|H3].
  { destruct r0 as [|b1 r1]; [done|].
    case_cont b1.
    match goal with |- context [(?a <=? ?c)%N] => destruct (N.leb_spec a c) as [H4|H4]; [|done] end.
    destruct (utf8.decode r1) as [s'|] eqn:Hr; [|done].
    step_done s' [b0; b1] r1. }
  destruct (N.ltb_spec (Byte.to_N b0) 0xF0) as [H4|H4].
  { destruct r0 as [|b1 [|b2 r2]]; [done|done|].
    case_cont b1. case_cont b2.
    match goal with |- context [(?a <=? ?c)%N] => destruct (N.leb_spec a c) as [H5|H5]; [|done] end.
    cbn [andb].
    match goal with |- context [utf8.is_surrogate ?c] => destruct (utf8.is_surrogate c) eqn:S; [done|] end.
    cbn [negb].
    destruct (utf8.decode r2) as [s'|] eqn:Hr; [|done].
    step_done s' [b0; b1; b2] r2. }
  destruct (N.ltb_spec (Byte.to_N b0) 0xF8) as [H5|H5]; [|done].
  destruct r0 as [|b1 [|b2 [|b3 r3]]]; [done|done|done|].
  case_cont b1. case_cont b2. case_cont b3.
  match goal with |- context [(?a <=? ?c)%N] => destruct (N.leb_spec a c) as [H6|H6]; [|done] end.
  cbn [andb].
  match goal with |- context [(?a <? ?c)%N] => destruct (N.ltb_spec a c) as [H7|H7]; [|done] end.
  destruct (utf8.decode r3) as [s'|] eqn:Hr; [|done].
  step_done s' [b0; b1; b2; b3] r3.
Qed.

Lemma decode_encode_scalar_len n :
  ∀ (bs : list byte) s, length bs ≤ n → utf8.decode bs = Some s →
          utf8.encode s = Some bs ∧ Forall utf8.scalar s.
Proof.
  induction n as [|n IH]; intros [|b0 r0] s Hlen Hdec; simpl in Hlen; try lia.
  - injection Hdec as <-. by split.
  - injection Hdec as <-. by split.
  - apply decode_step in Hdec as (c & s' & pre & rest & Hsplit & Hcp & Hsc & Hrest & -> & Hlt).
    simpl in Hlt.
    destruct (IH rest s') as [Henc Hall]; [lia|done|].
    split; [|by constructor].
    cbn [utf8.encode]. by rewrite Hcp, Henc, Hsplit.
Qed.

Lemma decode_encode bs s : utf8.decode bs = Some s → utf8.encode s = Some bs.
Proof. intros H. by eapply decode_encode_scalar_len. Qed.

Lemma decode_scalar bs s : utf8.decode bs = Some s → Forall utf8.scalar s.
Proof. intros H. by eapply decode_encode_scalar_len. Qed.

Lemma encode_cp_scalar c : utf8.scalar c → is_Some (utf8.encode_cp c).
Proof.
  intros [Hlt Hs]. unfold utf8.encode_cp. rewrite Hs. case_ltb; eauto.
Qed.

Lemma encode_scalar s : Forall utf8.scalar s → is_Some (utf8.encode s).
Proof.
  induction 1 as [|c s Hc _ [bs IH]]; [by eexists|].
  destruct (encode_cp_scalar c Hc) as [pre Hpre].
  cbn [utf8.encode]. rewrite Hpre, IH. by eexists.
Qed.

Ltac to_N_bytes :=
  repeat match goal with
         | |- context [Byte.to_N (utf8.byte_of_N ?n)] => rewrite (to_of_byte_N n) by lia
         end.

Lemma encode_cp_decode c pre rest :
  utf8.encode_cp c = Some pre →
  utf8.decode (pre ++ rest) = (c ::.) <$> utf8.decode rest.
Proof.
  unfold utf8.encode_cp.
  destruct (N.ltb_spec c 0x80) as [H1|H1].
  { intros [= <-]. cbn [app utf8.decode]. to_N_bytes.
    destruct (N.ltb_spec c 0x80); [|lia]. by destruct (utf8.decode rest). }
  destruct (N.ltb_spec c 0x800) as [H2|H2].
  { intros [= <-]. cbn [app utf8.decode]. to_N_bytes.
    unfold utf8.payload, utf8.is_cont. to_N_bytes.
    case_ltb.
    replace ((192 + c / 64 - 192) * 64 + (128 + c `mod` 64 - 128))%N with c by lia.
    destruct (N.leb_spec 128 (128 + c `mod` 64)); [|lia].
    destruct (N.leb_spec 128 c); [|lia]. cbn [andb].
    by destruct (utf8.decode rest). }
  destruct (N.ltb_spec c 0x10000) as [H3|H3].
  { destruct (utf8.is_surrogate c) eqn:S; [done|].
    intros [= <-]. cbn [app utf8.decode]. to_N_bytes.
    unfold utf8.payload, utf8.is_cont. to_N_bytes.
    case_ltb.
    match goal with |- context [utf8.is_surrogate ?e] => replace e with c by lia end.
    rewrite S.
    repeat match goal with |- context [(?a <=? ?b)%N] => destruct (N.leb_spec a b); [|lia] end.
    cbn [andb negb].
    by destruct (utf8.decode rest). }
  destruct (N.ltb_spec c 0x110000) as [H4|H4]; [|done].
  intros [= <-]. cbn [app utf8.decode]. to_N_bytes.
  unfold utf8.payload, utf8.is_cont. to_N_bytes.
  match goal with |- context [(?e <? 0x110000)%N] => replace e with c by lia end.
  case_ltb.
  repeat match goal with |- context [(?a <=? ?b)%N] => destruct (N.leb_spec a b); [|lia] end.
  cbn [andb].
  by destruct (utf8.decode rest).
Qed.

Lemma encode_decode s bs : utf8.encode s = Some bs → utf8.decode bs = Some s.
Proof.
  revert bs. induction s as [|c s IH]; intros bs; cbn [utf8.encode].
  - by intros [= <-].
  - destruct (utf8.encode_cp c) as [pre|] eqn:Hc; [|done].
    destruct (utf8.encode s) as [post|] eqn:Hs; [|done].
    intros [= <-]. rewrite (encode_cp_decode _ _ _ Hc), (IH post eq_refl). done.
Qed.

(* ===================================================================== *)
(** * Text mode *)
(* ===================================================================== *)

Lemma translate_newlines_LF (s : text) : translate_newlines LF s = s.
Proof.
  unfold translate_newlines.
  induction s as [|c s IH]; [done|].
  cbn [flat_map]. rewrite IH.
  destruct (c =? 10)%N eqn:Hc; [|done].
  by apply N.eqb_eq in Hc as ->.
Qed.

Lemma linesep_scalar k : Forall utf8.scalar (linesep k).
Proof. destruct k; repeat constructor; by vm_compute. Qed.

Lemma translate_newlines_scalar k (s : text) :
  Forall utf8.scalar s → Forall utf8.scalar (translate_newlines k s).
Proof.
  unfold translate_newlines.
  induction 1 as [|c s Hc _ IH]; [constructor|].
  cbn [flat_map]. apply Forall_app. split; [|exact IH].
  destruct (c =? 10)%N; [apply linesep_scalar | by constructor].
Qed.

(** A decoded body can always be written: no [UnicodeEncodeError]. *)
Lemma encoded_decoded E body content :
  utf8.decode body = Some content → is_Some (encoded E content).
Proof.
  intros H. apply encode_scalar, translate_newlines_scalar.
  by eapply decode_scalar.
Qed.

(* ===================================================================== *)
(** * Exception classes *)
(* ===================================================================== *)



Lemma interrupt_not_error msg : ¬ is_error (mk_exn KeyboardInterrupt msg).
Proof. unfold is_error. simpl. vm_compute. discriminate. Qed.

(* ===================================================================== *)
(** * One call of [download_gutenberg_book] *)
(* ===================================================================== *)

(** The call, spelled out by the answers of the environment. *)
Lemma download_gutenberg_book_cases E book_id filename w :
  download_gutenberg_book E book_id filename w =
  let w1 := requested w book_id filename in
  let w2 := opened w book_id filename in
  let p := output_path_of w filename in
  match http E (entered w book_id filename) (book_request book_id) with
  | urllib.Unreachable e => (Raise e, w1)
  | urllib.Status code reason body =>
      if urllib.is_success code then
        match body with
        | inl e => (Raise e, w1)
        | inr bs =>
            match utf8.decode bs with
            | None => (Raise (mk_exn UnicodeDecodeError (codec_error E bs)), w1)
            | Some content =>
                match open_w E w1 p with
                | Some e => (Raise e, w1)
                | None =>
                    match encoded E content with
                    | None => (Raise (mk_exn UnicodeEncodeError (encode_error E content)), w2)
                    | Some out =>
                        match flush_w E w2 p out with
                        | Some (k, e) => (Raise e, set_fs (<[p := take k out]> (fs w)) w2)
                        | None =>
                            (Ret p,
                             mk_World (globals w) (<[p := out]> (fs w))
                                      (stdout w ++ ["Downloaded: " +:+ filename +:+ ".txt"])
                                      (requests w ++ [book_request book_id])
                                      (calls w ++ [(book_id, filename)]))
                        end
                    end
                end
            end
        end
      else (Raise (urllib.http_error code reason), w1)
  end.
Proof.
  unfold download_gutenberg_book, mbind, M_bind, bind, record_call, urlopen_read,
    get_OUTPUT_DIR, open_for_writing, write_and_close, decode_utf8, print, ret, raise,
    encoded, opened, requested, entered, output_path_of, book_request, set_fs.
  cbn [globals fs stdout requests calls].
  destruct (http E _ _) as [e|code reason [e|bs]]; [done|..];
    destruct (urllib.is_success code); try done.
  destruct (utf8.decode bs) as [content|]; [|done].
  cbn [globals fs stdout requests calls].
  destruct (open_w E _ _) as [e|]; [done|].
  cbn [globals fs stdout requests calls].
  destruct (utf8.encode _) as [out|]; [|done].
  cbn [globals fs stdout requests calls].
  destruct (flush_w E _ _ _) as [[k e]|].
  - by rewrite insert_insert_eq.
  - by rewrite insert_insert_eq.
Qed.

Ltac call_cases :=
  rewrite download_gutenberg_book_cases; cbv zeta;
  repeat case_match; subst; simplify_eq; try done.

Lemma download_globals E book_id filename w :
  globals (snd (download_gutenberg_book E book_id filename w)) = globals w.
Proof. call_cases. Qed.

Lemma download_calls E book_id filename w :
  calls (snd (download_gutenberg_book E book_id filename w))
  = calls w ++ [(book_id, filename)].
Proof. call_cases. Qed.

Lemma download_requests E book_id filename w :
  requests (snd (download_gutenberg_book E book_id filename w))
  = requests w ++ [book_request book_id].
Proof. call_cases. Qed.


(** The number printed into the URL reads back as [book_id]. *)
Lemma format_int_reads_back (n : Z) :
  Z.of_int <$> NilZero.int_of_string (format_int n) = Some n.
Proof.
  unfold format_int. rewrite NilZero.isi.
  - simpl. by rewrite DecimalZ.of_to.
  - destruct n; simpl; [done| |done].
    intros [= H]. by apply Unsigned.to_uint_nonnil in H.
  - destruct n; simpl; [done|done|].
    intros [= H]. by apply Unsigned.to_uint_nonnil in H.
Qed.


(** Whatever is raised has one of the six causes; only the last one
    leaves a trace in the filesystem. *)
Lemma download_raise_inv E book_id filename w e w' :
  download_gutenberg_book E book_id filename w = (Raise e, w') →
  ∃ ph, fetch_failure E book_id filename w ph e
        ∧ (ph ≠ Writing → w' = requested w book_id filename)
        ∧ (ph = Writing →
           ∃ out k, flush_w E (opened w book_id filename)
                            (output_path_of w filename) out = Some (k, e)
                    ∧ w' = set_fs (<[output_path_of w filename := take k out]> (fs w))
                                  (requested w book_id filename)).
Proof.
  rewrite download_gutenberg_book_cases. cbv zeta.
  destruct (http E _ _) as [e0|code reason [e0|bs]] eqn:He.
  { intros [= <- <-]. exists Network. split; [by constructor|]. by split. }
  { destruct (urllib.is_success code) eqn:Hc; intros [= <- <-].
    - exists Reading. split; [by econstructor|]. by split.
    - exists BadStatus. split; [by econstructor|]. by split. }
  destruct (urllib.is_success code) eqn:Hc; cycle 1.
  { intros [= <- <-]. exists BadStatus. split; [by econstructor|]. by split. }
  destruct (utf8.decode bs) as [content|] eqn:Hd; cycle 1.
  { intros [= <- <-]. exists Decoding. split; [by econstructor|]. by split. }
  destruct (open_w E _ _) as [e0|] eqn:Ho.
  { intros [= <- <-]. exists Opening. split; [by econstructor|]. by split. }
  destruct (encoded_decoded E bs content Hd) as [out Hen]. rewrite Hen.
  destruct (flush_w E _ _ _) as [[k e0]|] eqn:Hf; [|done].
  intros [= <- <-]. exists Writing. split; [by econstructor|].
  split; [done|]. intros _. exists out, k. split; [done|].
  unfold opened, set_fs, requested. done.
Qed.

(** A call that returns has written the whole encoded text and printed
    its line. *)
Lemma download_ret_inv E book_id filename w p w' :
  download_gutenberg_book E book_id filename w = (Ret p, w') →
  p = output_path_of w filename
  ∧ ∃ out, w' = mk_World (globals w) (<[p := out]> (fs w))
                         (stdout w ++ ["Downloaded: " +:+ filename +:+ ".txt"])
                         (requests w ++ [book_request book_id])
                         (calls w ++ [(book_id, filename)]).
Proof.
  rewrite download_gutenberg_book_cases. cbv zeta.
  repeat case_match; try done. intros [= <- <-]. eauto.
Qed.

Lemma download_success E book_id filename w body content :
  fetchable E book_id filename w body →
  utf8.decode body = Some content →
  ∃ out, encoded E content = Some out
         ∧ download_gutenberg_book E book_id filename w
           = (Ret (output_path_of w filename),
              mk_World (globals w) (<[output_path_of w filename := out]> (fs w))
                       (stdout w ++ ["Downloaded: " +:+ filename +:+ ".txt"])
                       (requests w ++ [book_request book_id])
                       (calls w ++ [(book_id, filename)])).
Proof.
  intros ((code & reason & Hh & Hc) & Ho & Hf) Hd.
  destruct (encoded_decoded E body content Hd) as [out Hen].
  exists out. split; [done|].
  rewrite download_gutenberg_book_cases. cbv zeta.
  by rewrite Hh, Hc, Hd, Ho, Hen, Hf.
Qed.

(* ===================================================================== *)
(** * The loop of [download_all_books] *)
(* ===================================================================== *)

(** One turn of the loop. *)
Lemma download_each_cons E book_id filename rest w :
  download_each E ((book_id, filename) :: rest) w =
  match download_gutenberg_book E book_id filename w with
  | (Ret _, w1) => download_each E rest w1
  | (Raise e, w1) =>
      if issubclass (exn_class e) Exception
      then download_each E rest (reported filename e w1)
      else (Raise e, w1)
  end.
Proof.
  cbn [download_each].
  unfold mbind, M_bind, bind, try_except, ret, reported, print.
  destruct (download_gutenberg_book E book_id filename w) as [[p|e] w1]; [done|].
  by destruct (issubclass (exn_class e) Exception).
Qed.

Lemma download_each_app E l1 l2 w :
  download_each E (l1 ++ l2) w =
  match download_each E l1 w with
  | (Ret _, w1) => download_each E l2 w1
  | (Raise e, w1) => (Raise e, w1)
  end.
Proof.
  revert w. induction l1 as [|[book_id filename] l1 IH]; intros w; [done|].
  rewrite <- app_comm_cons, !download_each_cons.
  destruct (download_gutenberg_book E book_id filename w) as [[p|e] w1]; [apply IH|].
  destruct (issubclass (exn_class e) Exception); [apply IH|done].
Qed.




Lemma reported_calls filename e w : calls (reported filename e w) = calls w.
Proof. done. Qed.


Lemma reported_globals filename e w : globals (reported filename e w) = globals w.
Proof. done. Qed.

Lemma reported_fs filename e w : fs (reported filename e w) = fs w.
Proof. done. Qed.

(** The calls made by the loop are a prefix of the list, the whole list
    when the loop returns. *)
Lemma download_each_calls E books w :
  ∃ n, calls (snd (download_each E books w)) = calls w ++ take n books
       ∧ (∀ w', download_each E books w = (Ret tt, w') → n = length books).
Proof.
  revert w. induction books as [|[book_id filename] rest IH]; intros w.
  - exists 0. simpl. by rewrite app_nil_r.
  - rewrite download_each_cons.
    pose proof (download_calls E book_id filename w) as Hc.
    destruct (download_gutenberg_book E book_id filename w) as [[p|e] w1]; simpl in Hc.
    + destruct (IH w1) as (n & Hn & Hret). exists (S n).
      rewrite Hn, Hc, <- app_assoc. split; [done|].
      intros w' Hw'. simpl. f_equal. eauto.
    + destruct (issubclass (exn_class e) Exception).
      * destruct (IH (reported filename e w1)) as (n & Hn & Hret). exists (S n).
        rewrite Hn, reported_calls, Hc, <- app_assoc. split; [done|].
        intros w' Hw'. simpl. f_equal. eauto.
      * exists 1. simpl. rewrite take_0. split; [done|]. intros w' [=].
Qed.

Lemma download_each_calls_ret E books w w' :
  download_each E books w = (Ret tt, w') → calls w' = calls w ++ books.
Proof.
  intros H. destruct (download_each_calls E books w) as (n & Hn & Hret).
  rewrite (Hret _ H), firstn_all, H in Hn. done.
Qed.


Lemma download_each_globals E books w :
  globals (snd (download_each E books w)) = globals w.
Proof.
  revert w. induction books as [|[book_id filename] rest IH]; intros w; [done|].
  rewrite download_each_cons.
  pose proof (download_globals E book_id filename w) as Hg.
  destruct (download_gutenberg_book E book_id filename w) as [[p|e] w1]; simpl in Hg.
  - by rewrite IH.
  - destruct (issubclass (exn_class e) Exception); [|done].
    by rewrite IH, reported_globals.
Qed.







Lemma output_path_of_globals w w' filename :
  globals w' = globals w → output_path_of w' filename = output_path_of w filename.
Proof. unfold output_path_of. by intros ->. Qed.


(* ===================================================================== *)
(** * [main] *)
(* ===================================================================== *)

Lemma download_all_books_eq E w :
  download_all_books E w = download_each E (BOOKS (globals w)) w.
Proof. done. Qed.

Lemma main_eq E w :
  main E w =
  match download_each E (BOOKS (globals w)) (started w) with
  | (Ret _, w1) =>
      (Ret tt, mk_World (globals w1) (fs w1) (stdout w1 ++ [done_line])
                        (requests w1) (calls w1))
  | (Raise e, w1) => (Raise e, w1)
  end.
Proof.
  unfold main, download_all_books, mbind, M_bind, bind, get_BOOKS, get_OUTPUT_DIR, print.
  cbn [globals fs stdout requests calls].
  rewrite <- app_assoc. cbn [app].
  change (mk_World (globals w) (fs w) _ (requests w) (calls w)) with (started w).
  by destruct (download_each E _ (started w)) as [[[]|e] w1].
Qed.

(* ===================================================================== *)
(** * The concrete environments *)
(* ===================================================================== *)

Lemma static_env_ordinary k r o f :
  match r with
  | urllib.Unreachable e => is_error e
  | urllib.Status _ _ (inl e) => is_error e
  | urllib.Status _ _ (inr _) => True
  end →
  match o with Some e => is_error e | None => True end →
  match f with Some (_, e) => is_error e | None => True end →
  ordinary (static_env k r o f).
Proof.
  intros Hr Ho Hf. repeat split; cbn [static_env http open_w flush_w].
  - by intros _ _ e ->.
  - by intros _ _ code reason e ->.
  - by intros _ _ e ->.
  - by intros _ _ _ n e ->.
Qed.


Lemma env_not_found_ordinary : ordinary env_not_found.
Proof. by apply static_env_ordinary. Qed.


(** The two scenarios of the specification.  One item, served with
    ["Chapter 1..."]: the file holds exactly that text. *)
Example scenario_single_item :
  let w := mk_World (mk_Globals [(1342%Z, "pride-and-prejudice")] ["/"; "books"]) ∅ [] [] [] in
  ∃ w', download_all_books env_all_served w = (Ret tt, w')
        ∧ fs w' !! ["/"; "books"; "pride-and-prejudice.txt"] = Some chapter_one
        ∧ utf8.decode chapter_one
          = Some [67; 104; 97; 112; 116; 101; 114; 32; 49; 46; 46; 46]%N.
Proof. eexists. split; [vm_compute; reflexivity|]. vm_compute. repeat split. Qed.

(** One item served and one answered with 404: the first file is written,
    the failure of the second is on the console, the batch returns. *)
Example scenario_one_missing :
  let w := mk_World (mk_Globals [(1342%Z, "pride-and-prejudice"); (84%Z, "frankenstein")]
                                ["/"; "books"]) ∅ [] [] [] in
  ∃ w', download_all_books env_one_missing w = (Ret tt, w')
        ∧ fs w' !! ["/"; "books"; "pride-and-prejudice.txt"] = Some chapter_one
        ∧ fs w' !! ["/"; "books"; "frankenstein.txt"] = None
        ∧ stdout w' = ["Downloaded: pride-and-prejudice.txt";
                       "Failed to download frankenstein: HTTP Error 404: Not Found"].
Proof. eexists. split; [vm_compute; reflexivity|]. vm_compute. repeat split. Qed.

(** A disk that fills up leaves a truncated file behind. *)
Example partial_file_left_behind :
  ∃ w', download_gutenberg_book env_disk_full 1342 "pride-and-prejudice" fresh_world
        = (Raise (mk_exn OSError "[Errno 28] No space left on device"), w')
        ∧ fs w' !! ["/"; "srv"; "hearth"; "data"; "books"; "pride-and-prejudice.txt"]
          = Some (take 3 chapter_one).
Proof. eexists. split; [vm_compute; reflexivity|]. vm_compute. repeat split. Qed.

(** The ten names of the table are plain path components: each output
    file lies directly in [OUTPUT_DIR], and no two items share a file. *)
Lemma table_output_paths script files w :
  Forall (fun item =>
            output_path_of w (snd item)
            = OUTPUT_DIR (globals w) ++ [snd item +:+ ".txt"])
         (BOOKS (globals (initial_world script files)))
  ∧ NoDup (map (fun item => output_path_of w (snd item))
               (BOOKS (globals (initial_world script files)))).
Proof.
  split; [cbn [initial_world module_globals globals BOOKS]; repeat constructor|].
  assert (map (fun item => output_path_of w (snd item))
              (BOOKS (globals (initial_world script files)))
          = (fun c => OUTPUT_DIR (globals w) ++ [c])
              <$> map (fun item => snd item +:+ ".txt")
                      (BOOKS (globals (initial_world script files)))) as ->
    by reflexivity.
  apply NoDup_fmap_2.
  { intros a b Hab. by apply app_inv_head in Hab as [= ->]. }
  refine (bool_decide_unpack _ _). vm_compute. exact I.
Qed.

Example all_ten_files_written :
  Forall (fun item =>
            fs (snd (main env_all_served fresh_world))
               !! output_path_of fresh_world (snd item) = Some chapter_one)
         (BOOKS (globals fresh_world))
  ∧ size (fs (snd (main env_all_served fresh_world))) = 10.
Proof. split; [repeat constructor; vm_compute; reflexivity | vm_compute; reflexivity]. Qed.

(* ===================================================================== *)
(** * Properties of the batch and of one download *)
(* ===================================================================== *)



(** C2, as the code has it.  For an item whose resource is reachable and
    answers with a body that decodes as UTF-8, and whose output path is
    writable, [download_gutenberg_book] returns the path
    [OUTPUT_DIR / f"{filename}.txt"] and the file at that path, created
    or truncated, holds the UTF-8 encoding of the decoded body in which
    every line feed is written as the line separator of the platform.
    Where that separator is the line feed itself the bytes of the file
    are the bytes of the body.  [OUTPUT_DIR] is the directory of the
    script. *)
Theorem download_writes_body_in_text_mode
    (E : Env) (book_id : Z) (filename : string) (w : World)
    (body : list byte) (content : text) :
  fetchable E book_id filename w body →
  utf8.decode body = Some content →
  ∃ out w',
    download_gutenberg_book E book_id filename w = (Ret (output_path_of w filename), w')
    ∧ output_path_of w filename
      = pathlib.joinpath (OUTPUT_DIR (globals w)) (filename +:+ ".txt")
    ∧ fs w' !! output_path_of w filename = Some out
    ∧ utf8.decode out = Some (translate_newlines (os_linesep E) content)
    ∧ (os_linesep E = LF → out = body)
    ∧ ∀ script files,
        OUTPUT_DIR (globals (initial_world script files)) = pathlib.parent script.
Proof.
  intros Hf Hd.
  destruct (download_success E book_id filename w body content Hf Hd) as (out & Hen & Hrun).
  eexists out, _. split; [exact Hrun|]. split; [done|].
  split; [cbn [fs]; apply lookup_insert_eq|].
  split; [by apply encode_decode|].
  split; [|done].
  intros HLF. unfold encoded in Hen. rewrite HLF, translate_newlines_LF in Hen.
  apply decode_encode in Hd. congruence.
Qed.

Lemma env_all_served_fetchable book_id filename w :
  fetchable env_all_served book_id filename w chapter_one.
Proof. split; [by exists 200%Z, "OK"|done]. Qed.

Lemma download_writes_body_in_text_mode_witness :
  ∃ out w',
    download_gutenberg_book env_all_served 1342 "pride-and-prejudice" fresh_world
    = (Ret (output_path_of fresh_world "pride-and-prejudice"), w')
    ∧ output_path_of fresh_world "pride-and-prejudice"
      = pathlib.joinpath (OUTPUT_DIR (globals fresh_world)) ("pride-and-prejudice" +:+ ".txt")
    ∧ fs w' !! output_path_of fresh_world "pride-and-prejudice" = Some out
    ∧ utf8.decode out
      = Some (translate_newlines (os_linesep env_all_served)
                [67; 104; 97; 112; 116; 101; 114; 32; 49; 46; 46; 46]%N)
    ∧ (os_linesep env_all_served = LF → out = chapter_one)
    ∧ ∀ script files,
        OUTPUT_DIR (globals (initial_world script files)) = pathlib.parent script.
Proof.
  apply (download_writes_body_in_text_mode
           env_all_served 1342 "pride-and-prejudice" fresh_world chapter_one).
  - apply env_all_served_fetchable.
  - reflexivity.
Defined.

(** C2 as stated fails where the line separator is CR LF: the body
    ["a\n"] is decoded to the two code points 97, 10 and the file gets
    the three bytes 61 0D 0A, which decode to 97, 13, 10. *)
Lemma download_not_verbatim_on_crlf :
  fetchable env_crlf 1342 "pride-and-prejudice" fresh_world [x61; x0a]
  ∧ utf8.decode [x61; x0a] = Some [97; 10]%N
  ∧ ∃ w',
      download_gutenberg_book env_crlf 1342 "pride-and-prejudice" fresh_world
      = (Ret (output_path_of fresh_world "pride-and-prejudice"), w')
      ∧ fs w' !! output_path_of fresh_world "pride-and-prejudice" = Some [x61; x0d; x0a]
      ∧ utf8.decode [x61; x0d; x0a] = Some [97; 13; 10]%N
      ∧ utf8.decode [x61; x0d; x0a] ≠ Some [97; 10]%N.
Proof.
  split; [split; [by exists 200%Z, "OK"|done]|].
  split; [reflexivity|].
  eexists. split; [vm_compute; reflexivity|].
  split; [vm_compute; reflexivity|].
  split; [reflexivity|]. vm_compute. discriminate.
Qed.





(** C4.  Whatever the item and whatever happens to it, a call of
    [download_gutenberg_book] hands exactly one request to [urlopen]; it
    is a GET (no data) for
    [https://www.gutenberg.org/cache/epub/{id}/pg{id}.txt], where both
    [{id}] are the decimal numeral of [book_id], and it carries a
    [User-Agent] header. *)
Theorem one_get_per_call (E : Env) (book_id : Z) (filename : string) (w : World) :
  requests (snd (download_gutenberg_book E book_id filename w))
  = requests w ++ [book_request book_id]
  ∧ urllib.full_url (book_request book_id)
    = "https://www.gutenberg.org/cache/epub/" +:+ format_int book_id
      +:+ "/pg" +:+ format_int book_id +:+ ".txt"
  ∧ Z.of_int <$> NilZero.int_of_string (format_int book_id) = Some book_id
  ∧ urllib.get_method (book_request book_id) = "GET"
  ∧ urllib.headers (book_request book_id) = [("User-Agent", "Python-urllib/3.x")].
Proof.
  split; [apply download_requests|]. split; [done|].
  split; [apply format_int_reads_back|]. by split.
Qed.

Example pride_and_prejudice_url :
  urllib.full_url (book_request 1342)
  = "https://www.gutenberg.org/cache/epub/1342/pg1342.txt".
Proof. reflexivity. Qed.





(** C6.  A call of [download_gutenberg_book] that returns has written one
    file, the one at [OUTPUT_DIR / f"{filename}.txt"], which is the path
    it returns; that file exists afterwards, and every other path of the
    filesystem holds what it held before. *)
Theorem success_writes_exactly_one_file
    (E : Env) (book_id : Z) (filename : string) (w w' : World) (p : Path) :
  download_gutenberg_book E book_id filename w = (Ret p, w') →
  p = output_path_of w filename
  ∧ (∃ out, fs w' = <[p := out]> (fs w))
  ∧ is_Some (fs w' !! p)
  ∧ (∀ q, q ≠ p → fs w' !! q = fs w !! q)
  ∧ dom (fs w') = {[p]} ∪ dom (fs w).
Proof.
  intros H. apply download_ret_inv in H as (-> & out & ->). cbn [fs].
  split; [done|]. split; [by exists out|].
  split; [rewrite lookup_insert_eq; by eexists|].
  split; [intros q Hq; by rewrite lookup_insert_ne|].
  apply dom_insert_L.
Qed.

Lemma success_writes_exactly_one_file_witness :
  output_path_of fresh_world "pride-and-prejudice"
  = output_path_of fresh_world "pride-and-prejudice"
  ∧ (∃ out,
        fs (snd (download_gutenberg_book env_all_served 1342 "pride-and-prejudice"
                                         fresh_world))
        = <[output_path_of fresh_world "pride-and-prejudice" := out]> (fs fresh_world))
  ∧ is_Some (fs (snd (download_gutenberg_book env_all_served 1342 "pride-and-prejudice"
                                              fresh_world))
             !! output_path_of fresh_world "pride-and-prejudice")
  ∧ (∀ q, q ≠ output_path_of fresh_world "pride-and-prejudice" →
          fs (snd (download_gutenberg_book env_all_served 1342 "pride-and-prejudice"
                                           fresh_world)) !! q
          = fs fresh_world !! q)
  ∧ dom (fs (snd (download_gutenberg_book env_all_served 1342 "pride-and-prejudice"
                                          fresh_world)))
    = {[output_path_of fresh_world "pride-and-prejudice"]} ∪ dom (fs fresh_world).
Proof.
  apply (success_writes_exactly_one_file env_all_served 1342 "pride-and-prejudice").
  vm_compute. reflexivity.
Defined.



(** The console of the run in which Frankenstein is missing. *)
Example console_with_one_missing :
  stdout (snd (main env_one_missing fresh_world))
  = [ "Downloading 10 classic books from Project Gutenberg...";
      "Saving to: /srv/hearth/data/books" +:+ NL;
      "Downloaded: pride-and-prejudice.txt";
      "Downloaded: moby-dick.txt";
      "Failed to download frankenstein: HTTP Error 404: Not Found";
      "Downloaded: adventures-of-huckleberry-finn.txt";
      "Downloaded: adventures-of-sherlock-holmes.txt";
      "Downloaded: great-expectations.txt";
      "Downloaded: war-and-peace.txt";
      "Downloaded: crime-and-punishment.txt";
      "Downloaded: heart-of-darkness.txt";
      "Downloaded: gullivers-travels.txt";
      NL +:+ "Done!" ].
Proof. vm_compute. reflexivity. Qed.





(** C9.  The body is read and decoded before the output file is opened:
    when a call of [download_gutenberg_book] raises because there was no
    response, because the status was not a success, because the body
    could not be read or because it is not UTF-8 (and also when the file
    could not be opened), the filesystem is what it was before the call.
    The filesystem differs after a failed call only if the failure came
    while the bytes were being written, and then the output file holds
    the bytes that were written before the error. *)
Theorem failure_before_write_leaves_files_alone
    (E : Env) (book_id : Z) (filename : string) (w w' : World) (e : exn) :
  download_gutenberg_book E book_id filename w = (Raise e, w') →
  ∃ ph,
    fetch_failure E book_id filename w ph e
    ∧ (ph ≠ Writing → fs w' = fs w)
    ∧ (fs w' ≠ fs w → ph = Writing)
    ∧ (ph = Writing →
       ∃ out k,
         flush_w E (opened w book_id filename) (output_path_of w filename) out
         = Some (k, e)
         ∧ fs w' = <[output_path_of w filename := take k out]> (fs w)).
Proof.
  intros H. apply download_raise_inv in H as (ph & Hph & Hother & Hwrite).
  exists ph. split; [done|].
  split; [by intros ->%Hother|].
  split.
  - intros Hfs. destruct (decide (ph = Writing)) as [|Hne]; [done|].
    by rewrite (Hother Hne) in Hfs.
  - intros (out & k & Hflush & ->)%Hwrite. by exists out, k.
Qed.

Lemma failure_before_write_leaves_files_alone_witness :
  ∃ ph,
    fetch_failure env_not_utf8 84 "frankenstein" fresh_world ph
                  (mk_exn UnicodeDecodeError "invalid start byte")
    ∧ (ph ≠ Writing → fs (requested fresh_world 84 "frankenstein") = fs fresh_world)
    ∧ (fs (requested fresh_world 84 "frankenstein") ≠ fs fresh_world → ph = Writing)
    ∧ (ph = Writing →
       ∃ out k,
         flush_w env_not_utf8 (opened fresh_world 84 "frankenstein")
                 (output_path_of fresh_world "frankenstein") out
         = Some (k, mk_exn UnicodeDecodeError "invalid start byte")
         ∧ fs (requested fresh_world 84 "frankenstein")
           = <[output_path_of fresh_world "frankenstein" := take k out]> (fs fresh_world)).
Proof.
  apply (failure_before_write_leaves_files_alone env_not_utf8 84 "frankenstein").
  reflexivity.
Defined.

(** C10.  The handler of [download_all_books] catches what is an
    [Exception] and nothing else.  When the call for an item raises [e],
    the loop goes on with the items after it if [e] is an error; if [e]
    is not (a [KeyboardInterrupt], a [SystemExit]), [e] leaves
    [download_all_books], and the calls made are those for the items up
    to this one: no later item is attempted. *)
Theorem only_errors_are_caught
    (E : Env) (w w0 w1 : World) (pre post : list (Z * string))
    (book_id : Z) (filename : string) (e : exn) :
  BOOKS (globals w) = pre ++ (book_id, filename) :: post →
  download_each E pre w = (Ret tt, w0) →
  download_gutenberg_book E book_id filename w0 = (Raise e, w1) →
  (is_error e →
   download_all_books E w = download_each E post (reported filename e w1))
  ∧ (¬ is_error e →
     download_all_books E w = (Raise e, w1)
     ∧ calls w1 = calls w ++ pre ++ [(book_id, filename)]).
Proof.
  intros HB Hpre Hrun.
  rewrite download_all_books_eq, HB, download_each_app, Hpre, download_each_cons, Hrun.
  unfold is_error. split.
  - by intros ->.
  - intros He. destruct (issubclass (exn_class e) Exception); [done|].
    split; [done|].
    pose proof (download_calls E book_id filename w0) as Hc.
    rewrite Hrun in Hc. cbn [snd] in Hc.
    apply download_each_calls_ret in Hpre. by rewrite Hc, Hpre, app_assoc.
Qed.

Lemma only_errors_are_caught_witness :
  (is_error (mk_exn KeyboardInterrupt "") →
   download_all_books env_interrupted fresh_world
   = download_each env_interrupted (tail (BOOKS (globals fresh_world)))
       (reported "pride-and-prejudice" (mk_exn KeyboardInterrupt "")
                 (requested fresh_world 1342 "pride-and-prejudice")))
  ∧ (¬ is_error (mk_exn KeyboardInterrupt "") →
     download_all_books env_interrupted fresh_world
     = (Raise (mk_exn KeyboardInterrupt ""),
        requested fresh_world 1342 "pride-and-prejudice")
     ∧ calls (requested fresh_world 1342 "pride-and-prejudice")
       = calls fresh_world ++ [] ++ [(1342%Z, "pride-and-prejudice")]).
Proof.
  apply (only_errors_are_caught env_interrupted fresh_world fresh_world
           (requested fresh_world 1342 "pride-and-prejudice")
           [] (tail (BOOKS (globals fresh_world))) 1342 "pride-and-prejudice"
           (mk_exn KeyboardInterrupt "")).
  - reflexivity.
  - reflexivity.
  - reflexivity.
Defined.

(** Ctrl-C during the first request: one call, nothing printed. *)
Example interrupted_run :
  fst (main env_interrupted fresh_world) = Raise (mk_exn KeyboardInterrupt "")
  ∧ calls (snd (main env_interrupted fresh_world)) = [(1342%Z, "pride-and-prejudice")]
  ∧ stdout (snd (main env_interrupted fresh_world))
    = [summary_line fresh_world; saving_line fresh_world].
Proof. vm_compute. repeat split. Qed.

(* ===================================================================== *)
(** * Further properties of the script *)
(* ===================================================================== *)

(** ** The batch, whatever the environment does *)





(** ** Files are only ever added or overwritten *)

Lemma download_dom E book_id filename w :
  dom (fs w) ⊆ dom (fs (snd (download_gutenberg_book E book_id filename w))).
Proof.
  rewrite download_gutenberg_book_cases. cbv zeta.
  repeat case_match; cbn [snd fs set_fs opened requested]; try done;
    apply dom_insert_subseteq.
Qed.

Lemma download_each_dom E books w :
  dom (fs w) ⊆ dom (fs (snd (download_each E books w))).
Proof.
  revert w. induction books as [|[book_id filename] rest IH]; intros w; [done|].
  rewrite download_each_cons.
  pose proof (download_dom E book_id filename w) as Hd.
  destruct (download_gutenberg_book E book_id filename w) as [[p|e] w1]; cbn [snd] in Hd.
  - etrans; [exact Hd|apply IH].
  - destruct (issubclass (exn_class e) Exception); [|done].
    etrans; [exact Hd|]. etrans; [|apply IH]. by rewrite reported_fs.
Qed.

(** X3.  No file is ever removed: every path that holds a file before a
    call of [download_gutenberg_book], before [download_all_books] or
    before [main] holds one afterwards, however the run ends. *)
Theorem files_are_never_removed
    (E : Env) (book_id : Z) (filename : string) (w : World) :
  dom (fs w) ⊆ dom (fs (snd (download_gutenberg_book E book_id filename w)))
  ∧ dom (fs w) ⊆ dom (fs (snd (download_all_books E w)))
  ∧ dom (fs w) ⊆ dom (fs (snd (main E w))).
Proof.
  split; [apply download_dom|].
  split; [rewrite download_all_books_eq; apply download_each_dom|].
  rewrite main_eq.
  pose proof (download_each_dom E (BOOKS (globals w)) (started w)) as Hd.
  by destruct (download_each E _ (started w)) as [[[]|e] w1].
Qed.

(** ** The line on the console and the state of the file *)

(** X4.  A call of [download_gutenberg_book] prints at most one line.  If
    it raises, it has printed nothing.  If ["Downloaded: <filename>.txt"]
    is on the console, the call has returned the output path and the
    file there holds the whole encoded text of a body that the remote
    end served with a success status. *)
Theorem downloaded_line_means_file_complete
    (E : Env) (book_id : Z) (filename : string) (w : World) :
  (∃ e, fst (download_gutenberg_book E book_id filename w) = Raise e
        ∧ stdout (snd (download_gutenberg_book E book_id filename w)) = stdout w)
  ∨ (fst (download_gutenberg_book E book_id filename w) = Ret (output_path_of w filename)
     ∧ stdout (snd (download_gutenberg_book E book_id filename w))
       = stdout w ++ ["Downloaded: " +:+ filename +:+ ".txt"]
     ∧ ∃ code reason body content out,
         http E (entered w book_id filename) (book_request book_id)
         = urllib.Status code reason (inr body)
         ∧ urllib.is_success code = true
         ∧ utf8.decode body = Some content
         ∧ encoded E content = Some out
         ∧ fs (snd (download_gutenberg_book E book_id filename w))
              !! output_path_of w filename = Some out).
Proof.
  rewrite download_gutenberg_book_cases. cbv zeta.
  destruct (http E _ _) as [e0|code reason [e0|bs]] eqn:He; [left; eauto|..];
    destruct (urllib.is_success code) eqn:Hc; try (left; by eauto).
  destruct (utf8.decode bs) as [content|] eqn:Hd; [|left; by eauto].
  destruct (open_w E _ _) as [e0|]; [left; by eauto|].
  destruct (encoded E content) as [out|] eqn:Hen; [|left; by eauto].
  destruct (flush_w E _ _ _) as [[k e0]|]; [left; by eauto|].
  right. split; [done|]. split; [done|].
  exists code, reason, bs, content, out. cbn [snd fs].
  by rewrite lookup_insert_eq.
Qed.

(** ** The URL of a book *)

Lemma string_cons_append (a : ascii) (s t : string) :
  String a s +:+ t = String a (s +:+ t).
Proof. reflexivity. Qed.

Lemma string_nil_append (t : string) : "" +:+ t = t.
Proof. reflexivity. Qed.

Lemma string_length_append (s1 s2 : string) :
  String.length (s1 +:+ s2) = String.length s1 + String.length s2.
Proof.
  induction s1 as [|a s1 IH]; [done|].
  rewrite string_cons_append. cbn [String.length]. by rewrite IH.
Qed.

Lemma string_append_inj_same_length (a b s t : string) :
  String.length a = String.length b → a +:+ s = b +:+ t → a = b ∧ s = t.
Proof.
  revert b. induction a as [|x a IH]; intros [|y b] Hlen Heq; try done.
  rewrite !string_cons_append in Heq. cbn [String.length] in Hlen.
  injection Heq as -> Heq.
  destruct (IH b) as [-> ->]; [lia|done|done].
Qed.

Lemma string_append_inj_r (a b s : string) : a +:+ s = b +:+ s → a = b.
Proof.
  intros Heq. destruct (string_append_inj_same_length a b s s) as [Hab _]; [|done|done].
  apply (f_equal String.length) in Heq. rewrite !string_length_append in Heq. lia.
Qed.

Lemma format_int_inj (a b : Z) : format_int a = format_int b → a = b.
Proof.
  intros Heq.
  pose proof (format_int_reads_back a) as Ha.
  rewrite Heq, format_int_reads_back in Ha. congruence.
Qed.

(** X5.  Two books have the same URL only if they have the same
    identifier. *)
Theorem book_url_inj (a b : Z) : book_url a = book_url b ↔ a = b.
Proof.
  split; [|by intros ->].
  unfold book_url. intros Heq.
  apply String.app_inj in Heq.
  apply format_int_inj.
  eapply proj1, string_append_inj_same_length; [|exact Heq].
  apply (f_equal String.length) in Heq.
  rewrite !string_length_append in Heq. simpl in Heq. lia.
Qed.

(** ** Where the file goes *)

Lemma split_slash_plain (s : string) :
  has_slash s = false → pathlib.split_slash s = [s].
Proof.
  induction s as [|a s IH]; [done|].
  cbn [has_slash pathlib.split_slash].
  destruct (pathlib.is_slash a); [done|]. cbn [orb]. intros Hs. by rewrite (IH Hs).
Qed.

Lemma has_slash_append (s t : string) :
  has_slash (s +:+ t) = has_slash s || has_slash t.
Proof.
  induction s as [|a s IH]; [done|].
  rewrite string_cons_append. cbn [has_slash]. by rewrite IH, orb_assoc.
Qed.

Lemma root_of_plain (s : string) :
  has_slash s = false → pathlib.root_of (s +:+ ".txt") = None.
Proof.
  destruct s as [|a s]; [done|]. cbn [has_slash].
  intros [Ha _]%orb_false_elim.
  destruct s as [|b [|c s]];
    rewrite ?string_cons_append, ?string_nil_append; cbn [pathlib.root_of];
    by rewrite Ha.
Qed.

Lemma kept_txt (s : string) : pathlib.kept (s +:+ ".txt") = true.
Proof.
  unfold pathlib.kept.
  replace (s +:+ ".txt" =? "")%string with false
    by (symmetry; apply String.eqb_neq; by destruct s).
  replace (s +:+ ".txt" =? ".")%string with false; [done|].
  symmetry. apply String.eqb_neq. by destruct s as [|a [|b s]].
Qed.

Lemma output_path_of_plain (w : World) (filename : string) :
  has_slash filename = false →
  output_path_of w filename = OUTPUT_DIR (globals w) ++ [filename +:+ ".txt"].
Proof.
  intros Hs. unfold output_path_of, pathlib.joinpath, pathlib.parse.
  rewrite (root_of_plain filename Hs), split_slash_plain.
  - cbn [List.filter]. by rewrite kept_txt.
  - rewrite has_slash_append, Hs. done.
Qed.

(** X6.  For a name without a slash the output file lies directly in
    [OUTPUT_DIR], under the name followed by [.txt]; two such names share
    an output file only if they are the same name. *)
Theorem plain_name_stays_in_output_dir (w : World) (filename : string) :
  has_slash filename = false →
  output_path_of w filename = OUTPUT_DIR (globals w) ++ [filename +:+ ".txt"]
  ∧ ∀ other, has_slash other = false →
             (output_path_of w other = output_path_of w filename ↔ other = filename).
Proof.
  intros Hf. split; [by apply output_path_of_plain|].
  intros other Ho. split; [|by intros ->].
  rewrite (output_path_of_plain _ _ Hf), (output_path_of_plain _ _ Ho).
  intros [= Heq]%app_inv_head. by apply string_append_inj_r in Heq.
Qed.

Lemma plain_name_stays_in_output_dir_witness :
  output_path_of fresh_world "moby-dick"
  = OUTPUT_DIR (globals fresh_world) ++ ["moby-dick" +:+ ".txt"]
  ∧ ∀ other, has_slash other = false →
             (output_path_of fresh_world other = output_path_of fresh_world "moby-dick"
              ↔ other = "moby-dick").
Proof.
  apply (plain_name_stays_in_output_dir fresh_world "moby-dick"). reflexivity.
Defined.


Example absolute_name_example :
  output_path_of fresh_world "/tmp/moby-dick" = ["/"; "tmp"; "moby-dick.txt"].
Proof. reflexivity. Qed.

(** ** Decoding the body, encoding the file *)

(** X8.  The decoding of line 37 and the encoding of line 41 are inverse
    to each other: a body decodes to a text exactly when that text
    encodes to the body.  So no two bodies decode to the same text, and
    a decoded text holds no surrogate and nothing above U+10FFFF. *)
Theorem utf8_round_trip (bs : list byte) (s : text) :
  (utf8.decode bs = Some s ↔ utf8.encode s = Some bs)
  ∧ (utf8.decode bs = Some s → Forall utf8.scalar s)
  ∧ (∀ bs', utf8.decode bs = Some s → utf8.decode bs' = Some s → bs' = bs).
Proof.
  split; [split; [apply decode_encode|apply encode_decode]|].
  split; [apply decode_scalar|].
  intros bs' H H'. apply decode_encode in H, H'. congruence.
Qed.

Lemma translate_newlines_fixpoint (k : linesep_kind) (s : text) :
  translate_newlines k s = s ↔ k = LF ∨ 10%N ∉ s.
Proof.
  destruct k.
  { rewrite translate_newlines_LF. by intuition. }
  split; [|intros [[=]|Hs]].
  - intros Heq. right. unfold translate_newlines in Heq.
    induction s as [|c s IH]; [by apply not_elem_of_nil|].
    cbn [flat_map] in Heq.
    destruct (N.eqb_spec c 10) as [->|Hc]; [done|].
    injection Heq as Heq. apply not_elem_of_cons. split; [done|by apply IH].
  - unfold translate_newlines.
    induction s as [|c s IH]; [done|].
    apply not_elem_of_cons in Hs as [Hc Hs]. cbn [flat_map].
    destruct (N.eqb_spec c 10) as [->|_]; [done|]. cbn [app]. by rewrite IH.
Qed.

(** X9.  For an item that is fetched, the file decodes to the decoded
    body itself exactly when the line separator of the platform is the
    line feed or the body holds no line feed; and exactly then the bytes
    of the file are the bytes of the body. *)
Theorem file_verbatim_iff_no_newline_translation
    (E : Env) (book_id : Z) (filename : string) (w : World)
    (body : list byte) (content : text) :
  fetchable E book_id filename w body →
  utf8.decode body = Some content →
  ∃ out,
    fs (snd (download_gutenberg_book E book_id filename w)) !! output_path_of w filename
    = Some out
    ∧ (utf8.decode out = Some content ↔ os_linesep E = LF ∨ 10%N ∉ content)
    ∧ (out = body ↔ os_linesep E = LF ∨ 10%N ∉ content).
Proof.
  intros Hf Hd.
  destruct (download_success E book_id filename w body content Hf Hd) as (out & Hen & Hrun).
  exists out. rewrite Hrun. cbn [snd fs]. split; [apply lookup_insert_eq|].
  unfold encoded in Hen.
  pose proof (encode_decode _ _ Hen) as Hout.
  rewrite <- translate_newlines_fixpoint.
  split.
  - rewrite Hout. split; [by intros [= ->]|by intros ->].
  - split.
    + intros ->. rewrite Hd in Hout. by injection Hout.
    + intros Heq. rewrite Heq in Hen. apply decode_encode in Hd. congruence.
Qed.

Lemma file_verbatim_iff_no_newline_translation_witness :
  ∃ out,
    fs (snd (download_gutenberg_book env_crlf 2701 "moby-dick" fresh_world))
       !! output_path_of fresh_world "moby-dick"
    = Some out
    ∧ (utf8.decode out = Some [97; 10]%N ↔ os_linesep env_crlf = LF ∨ 10%N ∉ [97; 10]%N)
    ∧ (out = [x61; x0a] ↔ os_linesep env_crlf = LF ∨ 10%N ∉ [97; 10]%N).
Proof.
  apply (file_verbatim_iff_no_newline_translation
           env_crlf 2701 "moby-dick" fresh_world [x61; x0a] [97; 10]%N).
  - split; [by exists 200%Z, "OK"|done].
  - reflexivity.
Defined.

(** ** Running the batch again *)

(** With answers that do not depend on the world, a call does the same in
    two worlds with the same globals: same outcome, same file written
    with the same bytes, same line printed. *)
Lemma download_world_independent E book_id filename w w' :
  world_independent E →
  globals w = globals w' →
  ∃ (A : gmap Path (list byte)) (lines : list string),
    fst (download_gutenberg_book E book_id filename w)
    = fst (download_gutenberg_book E book_id filename w')
    ∧ fs (snd (download_gutenberg_book E book_id filename w)) = A ∪ fs w
    ∧ fs (snd (download_gutenberg_book E book_id filename w')) = A ∪ fs w'
    ∧ stdout (snd (download_gutenberg_book E book_id filename w)) = stdout w ++ lines
    ∧ stdout (snd (download_gutenberg_book E book_id filename w')) = stdout w' ++ lines.
Proof.
  intros (Hh & Ho & Hf) Hg.
  rewrite !download_gutenberg_book_cases. cbv zeta.
  rewrite (Hh (entered w book_id filename) (entered w' book_id filename)).
  rewrite (Ho (requested w book_id filename) (requested w' book_id filename)).
  rewrite (output_path_of_globals w' w filename Hg).
  set (p := output_path_of w' filename).
  assert (∀ out, flush_w E (opened w book_id filename) p out
                 = flush_w E (opened w' book_id filename) p out) as Hfl by (intros; apply Hf).
  destruct (http E _ _) as [e|code reason [e|bs]].
  { exists ∅, []. rewrite !(left_id_L ∅ (∪)), !app_nil_r. done. }
  { exists ∅, []. rewrite !(left_id_L ∅ (∪)), !app_nil_r.
    by destruct (urllib.is_success code). }
  destruct (urllib.is_success code);
    [|exists ∅, []; by rewrite !(left_id_L ∅ (∪)), !app_nil_r].
  destruct (utf8.decode bs) as [content|];
    [|exists ∅, []; by rewrite !(left_id_L ∅ (∪)), !app_nil_r].
  destruct (open_w E _ _) as [e|];
    [exists ∅, []; by rewrite !(left_id_L ∅ (∪)), !app_nil_r|].
  destruct (encoded E content) as [out|].
  - rewrite Hfl. destruct (flush_w E _ _ _) as [[k e]|].
    + exists {[p := take k out]}, []. cbn [fst snd fs stdout set_fs opened requested].
      by rewrite !insert_union_singleton_l, !app_nil_r.
    + exists {[p := out]}, ["Downloaded: " +:+ filename +:+ ".txt"].
      cbn [fst snd fs stdout]. by rewrite !insert_union_singleton_l.
  - exists {[p := []]}, []. cbn [fst snd fs stdout set_fs opened requested].
    rewrite (output_path_of_globals w' w filename Hg). fold p.
    by rewrite !insert_union_singleton_l, !app_nil_r.
Qed.

Lemma download_each_world_independent E books w w' :
  world_independent E →
  globals w = globals w' →
  ∃ (A : gmap Path (list byte)) (lines : list string),
    fst (download_each E books w) = fst (download_each E books w')
    ∧ fs (snd (download_each E books w)) = A ∪ fs w
    ∧ fs (snd (download_each E books w')) = A ∪ fs w'
    ∧ stdout (snd (download_each E books w)) = stdout w ++ lines
    ∧ stdout (snd (download_each E books w')) = stdout w' ++ lines.
Proof.
  intros HE. revert w w'.
  induction books as [|[book_id filename] rest IH]; intros w w' Hg.
  { exists ∅, []. cbn. by rewrite !(left_id_L ∅ (∪)), !app_nil_r. }
  rewrite !download_each_cons.
  destruct (download_world_independent E book_id filename w w' HE Hg)
    as (A1 & l1 & Hr & Hfs & Hfs' & Hout & Hout').
  pose proof (download_globals E book_id filename w) as Hg1.
  pose proof (download_globals E book_id filename w') as Hg1'.
  destruct (download_gutenberg_book E book_id filename w) as [r w1].
  destruct (download_gutenberg_book E book_id filename w') as [r' w1'].
  cbn [fst snd] in *. subst r'.
  destruct r as [p|e].
  - destruct (IH w1 w1') as (A2 & l2 & Hr2 & Hfs2 & Hfs2' & Hout2 & Hout2');
      [congruence|].
    exists (A2 ∪ A1), (l1 ++ l2).
    rewrite Hr2, Hfs2, Hfs2', Hout2, Hout2', Hfs, Hfs', Hout, Hout'.
    by rewrite !(assoc_L (∪)), !(assoc_L (++)).
  - destruct (issubclass (exn_class e) Exception).
    + destruct (IH (reported filename e w1) (reported filename e w1'))
        as (A2 & l2 & Hr2 & Hfs2 & Hfs2' & Hout2 & Hout2');
        [rewrite !reported_globals; congruence|].
      exists (A2 ∪ A1),
        (l1 ++ ["Failed to download " +:+ filename +:+ ": " +:+ exn_str e] ++ l2).
      rewrite Hr2, Hfs2, Hfs2', Hout2, Hout2', !reported_fs, Hfs, Hfs'.
      unfold reported, print. cbn [snd stdout]. rewrite Hout, Hout'.
      by rewrite !(assoc_L (∪)), <- !(assoc_L (++)).
    + exists A1, l1. by cbn [fst snd].
Qed.

(** X10.  When the answers of the environment do not depend on the
    world, running [download_all_books] a second time changes no file:
    the filesystem after the second run is the filesystem after the
    first.  The second run ends as the first did and prints the same
    lines again. *)
Theorem rerun_changes_no_file (E : Env) (w : World) :
  world_independent E →
  fs (snd (download_all_books E (snd (download_all_books E w))))
  = fs (snd (download_all_books E w))
  ∧ fst (download_all_books E (snd (download_all_books E w)))
    = fst (download_all_books E w)
  ∧ ∃ lines,
      stdout (snd (download_all_books E w)) = stdout w ++ lines
      ∧ stdout (snd (download_all_books E (snd (download_all_books E w))))
        = stdout w ++ lines ++ lines.
Proof.
  intros HE. rewrite !download_all_books_eq.
  pose proof (download_each_globals E (BOOKS (globals w)) w) as Hg.
  set (w1 := snd (download_each E (BOOKS (globals w)) w)) in *.
  rewrite Hg.
  destruct (download_each_world_independent E (BOOKS (globals w)) w w1 HE)
    as (A & lines & Hr & Hfs & Hfs' & Hout & Hout'); [done|].
  fold w1 in Hfs, Hout.
  split; [|split].
  - rewrite Hfs', Hfs. by rewrite (assoc_L (∪)), (idemp_L (∪)).
  - done.
  - exists lines. split; [done|]. by rewrite Hout', Hout, <- (assoc_L (++)).
Qed.

Lemma env_one_missing_world_independent : world_independent env_one_missing.
Proof. by repeat split. Qed.

Lemma rerun_changes_no_file_witness :
  fs (snd (download_all_books env_one_missing
                              (snd (download_all_books env_one_missing fresh_world))))
  = fs (snd (download_all_books env_one_missing fresh_world))
  ∧ fst (download_all_books env_one_missing
                            (snd (download_all_books env_one_missing fresh_world)))
    = fst (download_all_books env_one_missing fresh_world)
  ∧ ∃ lines,
      stdout (snd (download_all_books env_one_missing fresh_world))
      = stdout fresh_world ++ lines
      ∧ stdout (snd (download_all_books env_one_missing
                                        (snd (download_all_books env_one_missing
                                                                 fresh_world))))
        = stdout fresh_world ++ lines ++ lines.
Proof.
  apply (rerun_changes_no_file env_one_missing fresh_world).
  exact env_one_missing_world_independent.
Defined.

(** ** The last line of the console *)






(** ** Next to the script *)

Lemma parent_snoc (dir : Path) (name : string) :
  pathlib.is_root name = false → pathlib.parent (dir ++ [name]) = dir.
Proof.
  intros Hn. destruct dir as [|d dir]; cbn [app pathlib.parent].
  - by rewrite Hn.
  - destruct dir as [|d' dir]; [done|].
    change (d :: (d' :: dir) ++ [name]) with ((d :: d' :: dir) ++ [name]).
    by rewrite removelast_last.
Qed.

(** X12.  The books are saved next to the script: for a script stored
    under the name [script_name] in the directory [dir], the output file
    of an item whose name has no slash is [dir / "<filename>.txt"]. *)
Theorem books_are_saved_next_to_the_script
    (dir : Path) (script_name filename : string) (files : gmap Path (list byte)) :
  pathlib.is_root script_name = false →
  has_slash filename = false →
  output_path_of (initial_world (dir ++ [script_name]) files) filename
  = dir ++ [filename +:+ ".txt"].
Proof.
  intros Hs Hf.
  rewrite (output_path_of_plain _ _ Hf).
  cbn [initial_world module_globals globals OUTPUT_DIR].
  by rewrite parent_snoc.
Qed.

Lemma books_are_saved_next_to_the_script_witness :
  output_path_of
    (initial_world (["/"; "srv"; "hearth"; "data"; "books"] ++ ["download_books.py"]) ∅)
    "war-and-peace"
  = ["/"; "srv"; "hearth"; "data"; "books"] ++ ["war-and-peace" +:+ ".txt"].
Proof.
  apply (books_are_saved_next_to_the_script
           ["/"; "srv"; "hearth"; "data"; "books"] "download_books.py" "war-and-peace" ∅).
  - reflexivity.
  - reflexivity.
Defined.
